(** * Keysight function-generator driver and the arbitrary-sequence spyrelet

    A shallow embedding of [Keysight_66322A.py] (the Lantz driver class
    [Keysight_36622A]) and of [arbseq_spyrelet.py] (the Spyre task
    [ArbSeq.make_arb] with its initializer and finalizer).

    Python code that talks to the outside world is written in a small
    state-and-exception monad.  The driver's world is the transport object
    it inherits from Lantz' [MessageBasedDriver] (blocking [write] and
    [query]), together with a ghost log of the calls made on it.  The
    spyrelet's world is the parameter widget, the function generator, the
    dataset and a ghost log of what the task did.

    Numbers: Python [float] enters the driver only through the builtins
    [float(text)] and [str.format]; both are an interface ([PyFloat]) here.
    The spyrelet's [timestep] arithmetic is carried out on exact rationals
    ([Q]); binary rounding of [x += timestep] is outside this model.

    Left out: the [print] calls, which only write to standard output; the
    [plot_update] slot, which redraws the plot from the dataset on the GUI
    side; and what the Lantz decorators ([Feat], [DictFeat], [Action]) do
    around a method body (units, limits), which belongs to Lantz. *)

From Stdlib Require Import ZArith QArith Qround String Ascii List Bool Lia.
From Stdlib Require Import DecimalString.
Import ListNotations.

Open Scope string_scope.

(** ** Python: exceptions, outcomes, the monad *)

Module Py.

(** The exceptions that can reach a caller of this code. *)
Inductive Exn : Type :=
| ValueError (msg : string)        (* float() on text that is no number *)
| IndexError (msg : string)        (* list index / format index out of range *)
| VisaIOError (code : Z)           (* raised by the transport *)
| OtherError (name : string).      (* raised by any other collaborator *)

(** What running a piece of Python gives: a value, an exception, or (for
    the one [while] loop of the repository) fuel exhausted before the
    loop ended. *)
Inductive Outcome (A : Type) : Type :=
| Ok (a : A)
| Raised (e : Exn)
| OutOfFuel.
Arguments Ok {A} a.
Arguments Raised {A} e.
Arguments OutOfFuel {A}.

Definition M (W A : Type) : Type := W -> Outcome A * W.

Definition ret {W A} (a : A) : M W A := fun w => (Ok a, w).

Definition bind {W A B} (c : M W A) (k : A -> M W B) : M W B :=
  fun w =>
    match c w with
    | (Ok a, w') => k a w'
    | (Raised e, w') => (Raised e, w')
    | (OutOfFuel, w') => (OutOfFuel, w')
    end.

Definition raise {W A} (e : Exn) : M W A := fun w => (Raised e, w).

(** A pure step that may raise. *)
Definition lift {W A} (r : Exn + A) : M W A :=
  match r with
  | inl e => raise e
  | inr a => ret a
  end.

(** [str(n)] / ['{}'.format(n)] on a Python [int]. *)
Definition str_int (n : Z) : string := NilZero.string_of_int (Z.to_int n).

(** [template.format(a1, a2, ...)] for templates whose only replacement fields
    are the automatic ones, [{}].  An exhausted argument tuple raises
    [IndexError], as in Python.  (A lone brace, which Python rejects with
    [ValueError], does not occur in any template of the repository and is
    copied through.) *)
Fixpoint format (template : string) (args : list string) : Exn + string :=
  match template with
  | EmptyString => inr EmptyString
  | String c rest =>
      match rest with
      | String c' rest' =>
          if (Ascii.eqb c "{" && Ascii.eqb c' "}")%bool then
            match args with
            | [] => inl (IndexError "Replacement index out of range")
            | a :: args' =>
                match format rest' args' with
                | inl e => inl e
                | inr s => inr (a ++ s)
                end
            end
          else
            match format rest args with
            | inl e => inl e
            | inr s => inr (String c s)
            end
      | EmptyString => inr (String c EmptyString)
      end
  end.

End Py.

Import Py.

Declare Scope py_scope.
Delimit Scope py_scope with py.
Notation "x <- c ;; k" := (bind c (fun x => k))
  (at level 61, c at next level, right associativity) : py_scope.
Notation "c ;; k" := (bind c (fun _ => k))
  (at level 61, right associativity) : py_scope.
Open Scope py_scope.

(** ** The interfaces the driver is written against *)

(** Python's [float(text)] and the text ['{}'.format(x)] gives for a float. *)
Class PyFloat (F : Type) : Type := {
  py_float : string -> Exn + F;
  float_str : F -> string
}.

(** The message-based transport: blocking [write(text)] and
    [query(text) -> text], each of which may raise and may change the
    transport (and instrument) state [T]. *)
Class Transport (T : Type) : Type := {
  tr_write : string -> T -> (Exn + unit) * T;
  tr_query : string -> T -> (Exn + string) * T
}.

(** ** The driver class [Keysight_36622A] *)

Module Keysight_36622A.

(** The values that flow through the driver's methods. *)
Inductive PyVal (F : Type) : Type :=
| PyNone
| PyInt (n : Z)
| PyStr (s : string)
| PyFlt (f : F).
Arguments PyNone {F}.
Arguments PyInt {F} n.
Arguments PyStr {F} s.
Arguments PyFlt {F} f.

(** One call on the transport (ghost: what a recording stub would see). *)
Inductive Call : Type :=
| CWrite (cmd : string)
| CQuery (cmd : string).

(** [keys=(1, 2)] of every [DictFeat]. *)
Definition keys : list Z := [1; 2]%Z.

Section Methods.
Context {F : Type} `{PyFloat F} {T : Type} `{Transport T}.

(** The driver object: its transport, the instance attributes of
    [self], and the ghost log of transport calls. *)
Record Driver : Type := {
  transport : T;
  attrs : list (string * PyVal F);
  calls : list Call
}.

Definition D (A : Type) : Type := M Driver A.

(** [str(x)] / ['{}'.format(x)]. *)
Definition str (v : PyVal F) : string :=
  match v with
  | PyNone => "None"
  | PyInt n => str_int n
  | PyStr s => s
  | PyFlt f => float_str f
  end.

(** [self.write(cmd)] *)
Definition write (cmd : string) : D unit :=
  fun d =>
    let (r, t') := tr_write cmd (transport d) in
    let d' := {| transport := t'; attrs := attrs d;
                 calls := calls d ++ [CWrite cmd] |} in
    match r with
    | inl e => (Raised e, d')
    | inr _ => (Ok tt, d')
    end.

(** [self.query(cmd)] *)
Definition query (cmd : string) : D string :=
  fun d =>
    let (r, t') := tr_query cmd (transport d) in
    let d' := {| transport := t'; attrs := attrs d;
                 calls := calls d ++ [CQuery cmd] |} in
    match r with
    | inl e => (Raised e, d')
    | inr reply => (Ok reply, d')
    end.

(** [float(text)] *)
Definition float (text : string) : D F := lift (py_float text).

Definition idn : D (PyVal F) :=
  r <- query "*IDN?" ;; ret (PyStr r).

Definition clear_status : D (PyVal F) :=
  query "*CLS" ;; ret PyNone.

Definition event_status_enable (NRf : PyVal F) : D (PyVal F) :=
  r <- query ("*ESE" ++ str NRf) ;; ret (PyStr r).

Definition read_standard_event_status_register : D (PyVal F) :=
  r <- query "*ESR?" ;; ret (PyStr r).

Definition operation_complete : D (PyVal F) :=
  query "*OPC" ;; ret PyNone.

Definition operation_completed : D (PyVal F) :=
  r <- query "*OPC?" ;; ret (PyStr r).

Definition trigger : D (PyVal F) :=
  query "*TRG" ;; ret PyNone.

Definition test : D (PyVal F) :=
  r <- query "*TST?" ;; ret (PyStr r).

Definition wait : D (PyVal F) :=
  query "*WAI" ;; ret PyNone.

Definition voltage (key : Z) : D (PyVal F) :=
  cmd <- lift (format "SOURCE{}:VOLT?" [str_int key]) ;;
  r <- query cmd ;;
  f <- float r ;;
  ret (PyFlt f).

Definition voltage_setter (key : Z) (value : PyVal F) : D (PyVal F) :=
  cmd <- lift (format "SOURCE{}:VOLT {}" [str_int key; str value]) ;;
  write cmd ;; ret PyNone.

Definition offset (key : Z) : D (PyVal F) :=
  cmd <- lift (format "SOURCE{}:VOLT:OFFS?" [str_int key]) ;;
  r <- query cmd ;;
  f <- float r ;;
  ret (PyFlt f).

Definition offset_setter (key : Z) (value : PyVal F) : D (PyVal F) :=
  cmd <- lift (format "SOURCE{}:VOLT:OFFS {}" [str_int key; str value]) ;;
  write cmd ;; ret PyNone.

Definition frequency (key : Z) : D (PyVal F) :=
  cmd <- lift (format "SOURCE{}:FREQ?" [str_int key]) ;;
  r <- query cmd ;;
  f <- float r ;;
  ret (PyFlt f).

Definition frequency_setter (key : Z) (value : PyVal F) : D (PyVal F) :=
  cmd <- lift (format "SOURCE{}:FREQ {}" [str_int key; str value]) ;;
  write cmd ;; ret PyNone.

Definition waveform (key : Z) : D (PyVal F) :=
  cmd <- lift (format "SOURCE{}:FUNC?" [str_int key]) ;;
  r <- query cmd ;; ret (PyStr r).

Definition waveform_setter (key : Z) (value : PyVal F) : D (PyVal F) :=
  cmd <- lift (format "SOURCE{}:FUNC {}" [str_int key; str value]) ;;
  write cmd ;; ret PyNone.

Definition load_arbitrary (filename : PyVal F) (key : Z) : D (PyVal F) :=
  cmd <- lift (format "MMEM:LOAD:DATA{}{}" [str_int key; str filename]) ;;
  query cmd ;; ret PyNone.

Definition load_frequencies (filename : PyVal F) (key : Z) : D (PyVal F) :=
  cmd <- lift (format "MMEM:LOAD:LIST{}{}" [str_int key; str filename]) ;;
  query cmd ;; ret PyNone.

Definition abort : D (PyVal F) :=
  query "ABORT" ;; ret PyNone.

Definition freq_start (key : Z) (value : PyVal F) : D (PyVal F) :=
  cmd <- lift (format "SOUR{}:FREQ:START{}" [str_int key; str value]) ;;
  write cmd ;; ret PyNone.

Definition freq_stop (key : Z) (value : PyVal F) : D (PyVal F) :=
  cmd <- lift (format "SOUR{}:FREQ:STOP{}" [str_int key; str value]) ;;
  write cmd ;; ret PyNone.

Definition trigger_source (key : Z) : D (PyVal F) :=
  cmd <- lift (format "TRIG{}:SOURCE?" [str_int key]) ;;
  r <- query cmd ;; ret (PyStr r).

Definition trigger_source_setter (key : Z) (value : PyVal F) : D (PyVal F) :=
  cmd <- lift (format "TRIG{}:SOURCE{}" [str_int key; str value]) ;;
  write cmd ;; ret PyNone.

Definition force_trigger (key : Z) : D (PyVal F) :=
  cmd <- lift (format "TRIG{}" [str_int key]) ;;
  query cmd ;; ret PyNone.

Definition sweep_mode (key : Z) : D (PyVal F) :=
  cmd <- lift (format "SOURCE{}:SWEEP:SPAC?" [str_int key]) ;;
  r <- query cmd ;; ret (PyStr r).

Definition sweep_mode_setter (key : Z) (value : PyVal F) : D (PyVal F) :=
  cmd <- lift (format "SOURCE{}:SWEEP:SPAC {}" [str_int key; str value]) ;;
  query cmd ;; ret PyNone.

Definition sweep_time (key : Z) : D (PyVal F) :=
  cmd <- lift (format "SOURCE{}:SWEEP:TIME?" [str_int key]) ;;
  r <- query cmd ;; ret (PyStr r).

Definition sweep_time_setter (key : Z) (value : PyVal F) : D (PyVal F) :=
  cmd <- lift (format "SOURCE{}:SWEEP:TIME {}" [str_int key; str value]) ;;
  query cmd ;; ret PyNone.

Definition get_error : D (PyVal F) :=
  r <- query "SYSTEM:ERROR?" ;; ret (PyStr r).

(** Every public operation of the class, as a caller names it. *)
Inductive Op : Type :=
| Idn | ClearStatus | EventStatusEnable (NRf : PyVal F)
| ReadStandardEventStatusRegister
| OperationComplete | OperationCompleted | Trigger | Test | Wait
| GetVoltage (key : Z) | SetVoltage (key : Z) (value : PyVal F)
| GetOffset (key : Z) | SetOffset (key : Z) (value : PyVal F)
| GetFrequency (key : Z) | SetFrequency (key : Z) (value : PyVal F)
| GetWaveform (key : Z) | SetWaveform (key : Z) (value : PyVal F)
| LoadArbitrary (filename : PyVal F) (key : Z)
| LoadFrequencies (filename : PyVal F) (key : Z)
| Abort
| FreqStart (key : Z) (value : PyVal F)
| FreqStop (key : Z) (value : PyVal F)
| GetTriggerSource (key : Z) | SetTriggerSource (key : Z) (value : PyVal F)
| ForceTrigger (key : Z)
| GetSweepMode (key : Z) | SetSweepMode (key : Z) (value : PyVal F)
| GetSweepTime (key : Z) | SetSweepTime (key : Z) (value : PyVal F)
| GetError.

Definition exec (op : Op) : D (PyVal F) :=
  match op with
  | Idn => idn
  | ClearStatus => clear_status
  | EventStatusEnable n => event_status_enable n
  | ReadStandardEventStatusRegister => read_standard_event_status_register
  | OperationComplete => operation_complete
  | OperationCompleted => operation_completed
  | Trigger => trigger
  | Test => test
  | Wait => wait
  | GetVoltage k => voltage k
  | SetVoltage k v => voltage_setter k v
  | GetOffset k => offset k
  | SetOffset k v => offset_setter k v
  | GetFrequency k => frequency k
  | SetFrequency k v => frequency_setter k v
  | GetWaveform k => waveform k
  | SetWaveform k v => waveform_setter k v
  | LoadArbitrary f k => load_arbitrary f k
  | LoadFrequencies f k => load_frequencies f k
  | Abort => abort
  | FreqStart k v => freq_start k v
  | FreqStop k v => freq_stop k v
  | GetTriggerSource k => trigger_source k
  | SetTriggerSource k v => trigger_source_setter k v
  | ForceTrigger k => force_trigger k
  | GetSweepMode k => sweep_mode k
  | SetSweepMode k v => sweep_mode_setter k v
  | GetSweepTime k => sweep_time k
  | SetSweepTime k v => sweep_time_setter k v
  | GetError => get_error
  end.

(** The getters: the undecorated-name half of each [Feat] / [DictFeat]
    that returns the instrument's answer. *)
Definition is_getter (op : Op) : bool :=
  match op with
  | Idn | ReadStandardEventStatusRegister | Test | GetError
  | GetVoltage _ | GetOffset _ | GetFrequency _ | GetWaveform _
  | GetTriggerSource _ | GetSweepMode _ | GetSweepTime _ => true
  | _ => false
  end.

(** What the transport itself does with one call (ghost: replays the
    call outside the driver; a [write] has no reply text). *)
Definition perform (c : Call) (t : T) : (Exn + string) * T :=
  match c with
  | CWrite cmd =>
      let (r, t') := tr_write cmd t in
      (match r with inl e => inl e | inr _ => inr EmptyString end, t')
  | CQuery cmd => tr_query cmd t
  end.

Definition is_query (c : Call) : bool :=
  match c with CQuery _ => true | CWrite _ => false end.

(** The driver after the transport has served call [c] (ghost). *)
Definition after (d : Driver) (c : Call) : Driver :=
  {| transport := snd (perform c (transport d));
     attrs := attrs d;
     calls := calls d ++ [c] |}.

(** The four forms a method body of this class takes (ghost): one
    transport call, and what is made of its reply. *)
Inductive Shape : Type :=
| QueryText (cmd : string)     (* return self.query(cmd) *)
| QueryFloat (cmd : string)    (* return float(self.query(cmd)) *)
| QueryNone (cmd : string)     (* self.query(cmd) *)
| WriteNone (cmd : string).    (* self.write(cmd) *)

Definition run_shape (sh : Shape) : D (PyVal F) :=
  match sh with
  | QueryText cmd => r <- query cmd ;; ret (PyStr r)
  | QueryFloat cmd => r <- query cmd ;; f <- float r ;; ret (PyFlt f)
  | QueryNone cmd => query cmd ;; ret PyNone
  | WriteNone cmd => write cmd ;; ret PyNone
  end.

Definition shape_call (sh : Shape) : Call :=
  match sh with
  | QueryText cmd | QueryFloat cmd | QueryNone cmd => CQuery cmd
  | WriteNone cmd => CWrite cmd
  end.

Definition shape_result (sh : Shape) (reply : string) : Outcome (PyVal F) :=
  match sh with
  | QueryText _ => Ok (PyStr reply)
  | QueryFloat _ =>
      match py_float reply with
      | inl e => Raised e
      | inr f => Ok (PyFlt f)
      end
  | QueryNone _ | WriteNone _ => Ok PyNone
  end.

(** What one query, and one write, make of a driver (ghost): the outcome
    built from the reply by [k], the transport as the call left it, and the
    call logged. *)
Definition queried (d : Driver) (cmd : string)
           (k : string -> Outcome (PyVal F)) : Outcome (PyVal F) * Driver :=
  (match fst (tr_query cmd (transport d)) with
   | inl e => Raised e
   | inr reply => k reply
   end,
   {| transport := snd (tr_query cmd (transport d));
      attrs := attrs d;
      calls := calls d ++ [CQuery cmd] |}).

Definition written (d : Driver) (cmd : string)
  : Outcome (PyVal F) * Driver :=
  (match fst (tr_write cmd (transport d)) with
   | inl e => Raised e
   | inr _ => Ok PyNone
   end,
   {| transport := snd (tr_write cmd (transport d));
      attrs := attrs d;
      calls := calls d ++ [CWrite cmd] |}).

End Methods.

Arguments Driver F T : clear implicits.
Arguments Op F : clear implicits.

End Keysight_36622A.

(** ** Stand-ins used to run the driver

    [Decimal.decimal] numerals as float values: the text of [5.0] is "5.0"
    and [float] reads such text back.  *)

Module Stub.

(** Splits text at its first ".". *)
Fixpoint split_point (s : string) : string * option string :=
  match s with
  | EmptyString => (EmptyString, None)
  | String c rest =>
      if Ascii.eqb c "." then (EmptyString, Some rest)
      else let (a, b) := split_point rest in (String c a, b)
  end.

Definition decimal_of_string (s : string) : Exn + Decimal.decimal :=
  match split_point s with
  | (ip, Some fp) =>
      match NilZero.int_of_string ip, NilEmpty.uint_of_string fp with
      | Some i, Some f => inr (Decimal.Decimal i f)
      | _, _ => inl (ValueError ("could not convert string to float: " ++ s))
      end
  | (ip, None) =>
      match NilZero.int_of_string ip with
      | Some i => inr (Decimal.Decimal i Decimal.Nil)
      | None => inl (ValueError ("could not convert string to float: " ++ s))
      end
  end.

Definition string_of_decimal (d : Decimal.decimal) : string :=
  match d with
  | Decimal.Decimal i f =>
      NilZero.string_of_int i ++ "." ++ NilEmpty.string_of_uint f
  | Decimal.DecimalExp i f e =>
      NilZero.string_of_int i ++ "." ++ NilEmpty.string_of_uint f
        ++ "e" ++ NilZero.string_of_int e
  end.

#[export] Instance decimal_float : PyFloat Decimal.decimal := {
  py_float := decimal_of_string;
  float_str := string_of_decimal
}.

(** 5.0 *)
Definition five : Decimal.decimal :=
  Decimal.Decimal (Decimal.Pos (Decimal.D5 Decimal.Nil)) (Decimal.D0 Decimal.Nil).

(** Splits a command at its first space: header and parameter text. *)
Fixpoint split_space (s : string) : string * option string :=
  match s with
  | EmptyString => (EmptyString, None)
  | String c rest =>
      if Ascii.eqb c " " then (EmptyString, Some rest)
      else let (a, b) := split_space rest in (String c a, b)
  end.

(** An echoing transport: it remembers, per command header, the
    parameter text last written, and answers the query [header?] with
    that text; a query for a header never written times out. *)
Definition Echo : Type := list (string * string).

Fixpoint lookup (h : string) (m : Echo) : option string :=
  match m with
  | [] => None
  | (k, v) :: m' => if String.eqb k h then Some v else lookup h m'
  end.

Definition echo_write (cmd : string) (m : Echo) : (Exn + unit) * Echo :=
  match split_space cmd with
  | (h, Some v) => (inr tt, (h ++ "?", v) :: m)
  | (h, None) => (inr tt, m)
  end.

Definition echo_query (cmd : string) (m : Echo) : (Exn + string) * Echo :=
  match lookup cmd m with
  | Some v => (inr v, m)
  | None => (inl (VisaIOError (-1073807339)), m)
  end.

#[export] Instance echo_transport : Transport Echo := {
  tr_write := echo_write;
  tr_query := echo_query
}.

(** A transport that answers every query with the next line of a script
    and fails once the script is used up; writes always succeed. *)
Definition Script : Type := list string.

#[export] Instance script_transport : Transport Script := {
  tr_write := fun _ s => (inr tt, s);
  tr_query := fun _ s =>
    match s with
    | [] => (inl (VisaIOError (-1073807339)), [])
    | r :: s' => (inr r, s')
    end
}.

(** Drivers on these transports, with nothing sent yet. *)
Definition echo_driver : Keysight_36622A.Driver Decimal.decimal Echo :=
  {| Keysight_36622A.transport := [];
     Keysight_36622A.attrs := [];
     Keysight_36622A.calls := [] |}.

Definition script_driver (replies : Script)
  : Keysight_36622A.Driver Decimal.decimal Script :=
  {| Keysight_36622A.transport := replies;
     Keysight_36622A.attrs := [];
     Keysight_36622A.calls := [] |}.

End Stub.

(** ** The spyrelet [ArbSeq] *)

Module ArbSeq.

(** What [self.arbseq_parameters.widget.get()] returns: one entry per
    parameter the [arbseq_parameters] element declares. *)
Record Params : Type := {
  seqname : string;
  seqtype : string;
  channel : Z;
  voltage : Q;
  timestep : Q;
  totaltime : Q;
  width : Q;
  period : Q;
  slope : Q;
  repeatstring : string;
  markerstring : string;
  nrepeats : Z;
  markerloc : Z
}.

(** The row [{'x': ..., 'y': ...}] handed to [acquire]. *)
Record Row : Type := { x : Q; y : Q }.

(** [x < n] on numbers. *)
Definition Qltb (a b : Q) : bool := negb (Qle_bool b a).

(** [len(ydata)] as a number. *)
Definition len {A} (l : list A) : Q := inject_Z (Z.of_nat (length l)).

(** Lines 39 to 43: [xdata = list(); x = 0;
    while x < len(ydata): xdata.append(x); x += timestep].
    [fuel] bounds the number of tests of the loop condition. *)
Fixpoint while_x (fuel : nat) (n : Q) (timestep : Q) (x : Q) (xdata : list Q)
  : option (list Q) :=
  match fuel with
  | O => None
  | S fuel' =>
      if Qltb x n
      then while_x fuel' n timestep (x + timestep) (xdata ++ [x])
      else Some xdata
  end.

(** [ceil(n / timestep)], the number of multiples of [timestep] below [n]. *)
Definition steps (n : nat) (timestep : Q) : nat :=
  Z.to_nat (Qceiling (inject_Z (Z.of_nat n) / timestep)).

(** The rows that pair [xdata[i]] with [ydata[i]], as far as both lists
    go (ghost). *)
Definition zip_rows (xdata ydata : list Q) : list Row :=
  map (fun xy => {| x := fst xy; y := snd xy |}) (combine xdata ydata).

Section Task.
(** The collaborators: the sequence builder with its [Arbseq_Class]
    objects, and the function generator [self.fungen]. *)
Context {Arbseq : Type} {Fungen : Type}.

(** One call on [self.fungen]. *)
Inductive FungenCall : Type :=
| clear_status
| voltage_set (channel : Z) (value : Q)
| output_set (channel : Z) (value : string)
| send_arb (arbseq : Arbseq) (chn : Z).

Context (ydata : Arbseq -> list Q)
        (build_arbseq : string -> Params -> string -> Q -> Exn + Arbseq)
        (fungen_call : FungenCall -> Fungen -> (Exn + unit) * Fungen).

(** What an observer of a run sees (ghost). *)
Inductive Event : Type :=
| EFungen (c : FungenCall)
| EAcquire (values : Row)
| EClear.

Record Spyrelet : Type := {
  arbseq_parameters : Params;
  fungen : Fungen;
  dataset : list Row;
  log : list Event
}.

Definition S_ (A : Type) : Type := M Spyrelet A.

(** [self.arbseq_parameters.widget.get()] *)
Definition widget_get : S_ Params :=
  fun s => (Ok (arbseq_parameters s), s).

(** A call on [self.fungen]. *)
Definition call (c : FungenCall) : S_ unit :=
  fun s =>
    let (r, f') := fungen_call c (fungen s) in
    let s' := {| arbseq_parameters := arbseq_parameters s; fungen := f';
                 dataset := dataset s; log := log s ++ [EFungen c] |} in
    match r with
    | inl e => (Raised e, s')
    | inr _ => (Ok tt, s')
    end.

(** [self.make_arb.acquire(values)]: the row joins the dataset. *)
Definition acquire (values : Row) : S_ unit :=
  fun s =>
    (Ok tt, {| arbseq_parameters := arbseq_parameters s; fungen := fungen s;
               dataset := dataset s ++ [values];
               log := log s ++ [EAcquire values] |}).

(** [self.dataset.clear()] *)
Definition dataset_clear : S_ unit :=
  fun s =>
    (Ok tt, {| arbseq_parameters := arbseq_parameters s; fungen := fungen s;
               dataset := [];
               log := log s ++ [EClear] |}).

(** [l[i]] for [i >= 0]. *)
Definition getitem (l : list Q) (i : nat) : S_ Q :=
  match nth_error l i with
  | Some a => ret a
  | None => raise (IndexError "list index out of range")
  end.

(** Lines 47 to 49: the body of [for i in range(len(ydata))], over the
    indices still to visit. *)
Fixpoint for_acquire (range : list nat) (xdata ydata : list Q) : S_ unit :=
  match range with
  | [] => ret tt
  | i :: range' =>
      xi <- getitem xdata i ;;
      yi <- getitem ydata i ;;
      acquire {| x := xi; y := yi |} ;;
      for_acquire range' xdata ydata
  end.

Definition make_arb (fuel : nat) : S_ unit :=
  params <- widget_get ;;
  let seqtype := seqtype params in
  let name := seqname params in
  let timestep := timestep params in
  arbseq <- lift (build_arbseq seqtype params name timestep) ;;
  let ydata := ydata arbseq in
  match while_x fuel (len ydata) timestep 0 [] with
  | None => fun s => (OutOfFuel, s)
  | Some xdata =>
      for_acquire (seq 0 (length ydata)) xdata ydata ;;
      call (send_arb arbseq (channel params)) ;;
      dataset_clear
  end.

Definition initialize : S_ unit :=
  params <- widget_get ;;
  let channel := channel params in
  call clear_status ;;
  call (voltage_set channel (voltage params)) ;;
  call (output_set channel "ON") ;;
  ret tt.

Definition finalize : S_ unit := ret tt.

(** Modelled from the spec: the task runner of the Spyre framework,
    which is not among the source files.  The design description gives
    the order of a run: channel initialisation, then the task body with
    the upload, then finalisation. *)
Definition run_task (fuel : nat) : S_ unit :=
  initialize ;; make_arb fuel ;; finalize.

Definition is_fungen (e : Event) : bool :=
  match e with EFungen _ => true | _ => false end.

Definition is_acquire (e : Event) : bool :=
  match e with EAcquire _ => true | _ => false end.

Definition is_upload (e : Event) : bool :=
  match e with EFungen (send_arb _ _) => true | _ => false end.

(** The spyrelet after [rows] were acquired (ghost). *)
Definition acquired (s : Spyrelet) (rows : list Row) : Spyrelet :=
  {| arbseq_parameters := arbseq_parameters s;
     fungen := fungen s;
     dataset := dataset s ++ rows;
     log := log s ++ map EAcquire rows |}.

End Task.

Arguments FungenCall Arbseq : clear implicits.
Arguments Event Arbseq : clear implicits.
Arguments Spyrelet Arbseq Fungen : clear implicits.

End ArbSeq.

(** ** Stand-ins used to run the task *)

Module StubTask.
Import ArbSeq.

(** A builder whose sequence is three samples at the requested voltage,
    and a function generator that accepts every call and records it. *)
Definition Arb : Type := list Q.

Definition ydata (a : Arb) : list Q := a.

Definition build_arbseq (seqtype : string) (p : Params) (name : string)
           (timestep : Q) : Exn + Arb :=
  inr [voltage p; voltage p; voltage p].

Definition Gen : Type := list (FungenCall Arb).

Definition fungen_call (c : FungenCall Arb) (g : Gen) : (Exn + unit) * Gen :=
  (inr tt, (g ++ [c])%list).

(** The defaults of the [arbseq_parameters] element, channel 1. *)
Definition defaults : Params := {|
  seqname := "arbitrary_dc";
  seqtype := "dc";
  channel := 1;
  voltage := 5 # 100;
  timestep := 1;
  totaltime := 100;
  width := 10;
  period := 10;
  slope := 1 # 100;
  repeatstring := "once";
  markerstring := "maintain";
  nrepeats := 0;
  markerloc := 0
|}.

Definition fresh : Spyrelet Arb Gen := {|
  arbseq_parameters := defaults;
  fungen := [];
  dataset := [];
  log := []
|}.

(** The defaults with another timestep. *)
Definition at_timestep (t : Q) : Spyrelet Arb Gen := {|
  arbseq_parameters := {|
    seqname := "arbitrary_dc";
    seqtype := "dc";
    channel := 1;
    voltage := 5 # 100;
    timestep := t;
    totaltime := 100;
    width := 10;
    period := 10;
    slope := 1 # 100;
    repeatstring := "once";
    markerstring := "maintain";
    nrepeats := 0;
    markerloc := 0
  |};
  fungen := [];
  dataset := [];
  log := []
|}.

(** A builder that raises, and one whose sequence has no samples. *)
Definition failing_build (seqtype : string) (p : Params) (name : string)
           (timestep : Q) : Exn + Arb :=
  inl (OtherError "SeqBuild").

Definition empty_build (seqtype : string) (p : Params) (name : string)
           (timestep : Q) : Exn + Arb :=
  inr [].

(** A function generator that refuses the upload and accepts the rest. *)
Definition refusing_upload (c : FungenCall Arb) (g : Gen)
  : (Exn + unit) * Gen :=
  match c with
  | send_arb _ _ => (inl (VisaIOError (-1073807339)), (g ++ [c])%list)
  | _ => (inr tt, (g ++ [c])%list)
  end.

End StubTask.

(** * Properties of the driver *)

Import Keysight_36622A.

Lemma append_empty_r (s : string) : s ++ "" = s.
Proof.
  induction s as [| c s IH]; simpl; [reflexivity | now rewrite IH].
Qed.

Lemma key_text (key : Z) :
  In key keys ->
  (key = 1%Z /\ str_int key = "1") \/ (key = 2%Z /\ str_int key = "2").
Proof.
  unfold keys. simpl. intros [<- | [<- | []]]; [left | right]; split; reflexivity.
Qed.

Ltac unfold_methods :=
  unfold idn, clear_status, event_status_enable,
    read_standard_event_status_register, operation_complete,
    operation_completed, trigger, test, wait, voltage, voltage_setter,
    offset, offset_setter, frequency, frequency_setter, waveform,
    waveform_setter, load_arbitrary, load_frequencies, abort, freq_start,
    freq_stop, trigger_source, trigger_source_setter, force_trigger,
    sweep_mode, sweep_mode_setter, sweep_time, sweep_time_setter, get_error.

Ltac run_format := cbn [format Ascii.eqb Bool.eqb andb].

Section DriverFacts.
Context {F : Type} `{PyFloat F} {T : Type} `{Transport T}.

(** A method body of any of the four forms makes its one call and builds
    its result from the reply alone. *)
Lemma run_shape_eq (sh : Shape) (d : Driver F T) :
  run_shape sh d =
  (match fst (perform (shape_call sh) (transport d)) with
   | inl e => Raised e
   | inr reply => shape_result sh reply
   end, after d (shape_call sh)).
Proof.
  destruct sh;
    unfold run_shape, bind, query, write, float, lift, after, perform,
      shape_call, shape_result; cbn.
  - destruct (tr_query cmd (transport d)) as [[e | reply] t']; reflexivity.
  - destruct (tr_query cmd (transport d)) as [[e | reply] t']; cbn;
      try reflexivity.
    destruct (py_float reply); reflexivity.
  - destruct (tr_query cmd (transport d)) as [[e | reply] t']; reflexivity.
  - destruct (tr_write cmd (transport d)) as [[e | []] t']; reflexivity.
Qed.

(** Every public operation is of one of the four forms; the getters are
    queries, and only the voltage, offset and frequency getters parse. *)
Lemma exec_shape (op : Op F) :
  exists sh : Shape,
    (forall d : Driver F T, exec op d = run_shape sh d) /\
    (is_getter op = true -> is_query (shape_call sh) = true) /\
    (forall cmd, sh = QueryFloat cmd ->
       exists key, op = GetVoltage key \/ op = GetOffset key \/
                   op = GetFrequency key).
Proof.
  destruct op; eexists;
    (split; [intro d; cbn [exec]; unfold_methods; run_format;
      first [ exact (eq_refl (run_shape (QueryText _) d))
            | exact (eq_refl (run_shape (QueryFloat _) d))
            | exact (eq_refl (run_shape (QueryNone _) d))
            | exact (eq_refl (run_shape (WriteNone _) d)) ] |]);
    (split; [cbn; intro Hg; first [reflexivity | discriminate Hg] |]);
    intros cmd0 E; first [discriminate E | eauto].
Qed.


(** C2: set then read back.  If the transport accepts the voltage-set
    command for channel 1 and then answers the voltage query with the
    value text it was sent, and [float] reads that text back as the
    value, then [voltage[1] = v] followed by [voltage[1]] returns [v];
    the transport saw the write and then the query, and nothing else. *)
Theorem voltage_roundtrip (v : F) (d : Driver F T) (t1 t2 : T) :
  tr_write ("SOURCE1:VOLT " ++ float_str v) (transport d) = (inr tt, t1) ->
  tr_query "SOURCE1:VOLT?" t1 = (inr (float_str v), t2) ->
  py_float (float_str v) = inr v ->
  (voltage_setter 1 (PyFlt v) ;; voltage 1) d =
  (Ok (PyFlt v),
   {| transport := t2;
      attrs := attrs d;
      calls := calls d ++ [CWrite ("SOURCE1:VOLT " ++ float_str v);
                           CQuery "SOURCE1:VOLT?"] |}).
Proof.
  intros Hw Hq Hf.
  unfold voltage_setter, voltage. run_format.
  change (str_int 1) with "1". cbn [append str].
  rewrite append_empty_r.
  unfold bind, lift, ret, write, query, float. cbn [transport attrs calls].
  cbn [append] in Hw. rewrite Hw. cbn [transport attrs calls].
  rewrite Hq. cbn [transport attrs calls]. rewrite Hf.
  unfold ret. rewrite <- app_assoc. reflexivity.
Qed.

(** C3, what the code does: on channel 1 the trigger-source setter writes
    the value directly after the keyword, so the source [BUS] goes out as
    [TRIG1:SOURCEBUS], which is not the text [TRIG1:SOURCE BUS]. *)
Theorem trigger_source_setter_omits_space (value : PyVal F) (d : Driver F T) :
  calls (snd (trigger_source_setter 1 value d)) =
    (calls d ++ [CWrite ("TRIG1:SOURCE" ++ str value)])%list /\
  calls (snd (trigger_source_setter 1 (PyStr "BUS") d)) =
    (calls d ++ [CWrite "TRIG1:SOURCEBUS"])%list /\
  "TRIG1:SOURCEBUS" <> "TRIG1:SOURCE BUS".
Proof.
  assert (E : forall value0 : PyVal F,
             calls (snd (trigger_source_setter 1 value0 d)) =
             (calls d ++ [CWrite ("TRIG1:SOURCE" ++ str value0)])%list).
  { intro value0. unfold trigger_source_setter. run_format.
    change (str_int 1) with "1". cbn [append].
    rewrite append_empty_r.
    unfold bind, lift, ret, write.
    destruct (tr_write _ (transport d)) as [[e | []] t']; reflexivity. }
  split; [apply E | split; [apply (E (PyStr "BUS")) | discriminate]].
Qed.



(** C7: for a channel key in {1, 2} the frequency getter makes one
    transport call, the query [SOURCE<key>:FREQ?], and returns
    [float(reply)]: the parsed number, not the text, and [float]'s
    exception when the text is no number. *)
Theorem frequency_getter_parses (key : Z) (d : Driver F T) :
  In key keys ->
  exists ch : string,
    ((key = 1%Z /\ ch = "1") \/ (key = 2%Z /\ ch = "2")) /\
    let cmd := "SOURCE" ++ ch ++ ":FREQ?" in
    frequency key d =
    (match fst (tr_query cmd (transport d)) with
     | inl e => Raised e
     | inr reply =>
         match py_float reply with
         | inl e => Raised e
         | inr f => Ok (PyFlt f)
         end
     end,
     {| transport := snd (tr_query cmd (transport d));
        attrs := attrs d;
        calls := calls d ++ [CQuery cmd] |}).
Proof.
  intro Hk. exists (str_int key). split.
  - destruct (key_text key Hk) as [[-> E] | [-> E]]; [left | right];
      split; reflexivity.
  - cbn zeta. unfold frequency. run_format.
    change (String "S" (String "O" (String "U" (String "R" (String "C"
              (String "E" (str_int key ++ String ":" (String "F"
              (String "R" (String "E" (String "Q" "?")))))))))))
      with ("SOURCE" ++ str_int key ++ ":FREQ?").
    set (cmd := "SOURCE" ++ str_int key ++ ":FREQ?").
    unfold bind, lift, ret, query, float.
    destruct (tr_query cmd (transport d)) as [[e | reply] t'];
      cbn [fst snd]; [reflexivity |].
    unfold lift, raise, ret. destruct (py_float reply); reflexivity.
Qed.

(** C9: [clear_status], [trigger], [abort], [wait] and
    [operation_complete] each send their command ([*CLS], [*TRG],
    [ABORT], [*WAI], [*OPC]) through the transport's [query], not its
    [write]: the one call made is a query, whose reply is awaited and
    dropped, and whose exception (no reply arriving) is the operation's. *)
Theorem no_reply_actions_query (d : Driver F T) :
  let queried (cmd : string) : Outcome (PyVal F) * Driver F T :=
    (match fst (tr_query cmd (transport d)) with
     | inl e => Raised e
     | inr _ => Ok PyNone
     end,
     {| transport := snd (tr_query cmd (transport d));
        attrs := attrs d;
        calls := calls d ++ [CQuery cmd] |}) in
  clear_status d = queried "*CLS" /\
  trigger d = queried "*TRG" /\
  abort d = queried "ABORT" /\
  wait d = queried "*WAI" /\
  operation_complete d = queried "*OPC".
Proof.
  cbn zeta.
  repeat split; unfold_methods; unfold bind, ret, query;
    destruct (tr_query _ (transport d)) as [[e | reply] t']; reflexivity.
Qed.

End DriverFacts.

Import Stub.


Lemma voltage_roundtrip_witness :
  (voltage_setter 1 (PyFlt five) ;; voltage 1) echo_driver =
  (Ok (PyFlt five),
   {| transport := [("SOURCE1:VOLT?", "5.0")];
      attrs := [];
      calls := [CWrite "SOURCE1:VOLT 5.0"; CQuery "SOURCE1:VOLT?"] |}).
Proof.
  exact (voltage_roundtrip five echo_driver
           [("SOURCE1:VOLT?", "5.0")] [("SOURCE1:VOLT?", "5.0")]
           eq_refl eq_refl eq_refl).
Defined.

Lemma frequency_getter_parses_witness :
  In 2%Z keys /\
  frequency 2 (script_driver ["50.0"; "5.0"]) =
  (Ok (PyFlt (Decimal.Decimal
                (Decimal.Pos (Decimal.D5 (Decimal.D0 Decimal.Nil)))
                (Decimal.D0 Decimal.Nil))),
   {| transport := ["5.0"];
      attrs := [];
      calls := [CQuery "SOURCE2:FREQ?"] |}).
Proof.
  assert (Hk : In 2%Z keys) by (right; left; reflexivity).
  split; [exact Hk |].
  destruct (frequency_getter_parses 2 (script_driver ["50.0"; "5.0"]) Hk)
    as [ch [[[E _] | [_ ->]] Heq]]; [discriminate E |].
  rewrite Heq. reflexivity.
Defined.

(** ** The rest of the class *)

Section DriverExtras.
Context {F : Type} `{PyFloat F} {T : Type} `{Transport T}.

Lemma run_query (sh : Shape) (cmd : string) (d : Driver F T) :
  shape_call sh = CQuery cmd ->
  run_shape sh d = queried d cmd (shape_result sh).
Proof.
  intro E. rewrite run_shape_eq, E. reflexivity.
Qed.

Lemma run_write (cmd : string) (d : Driver F T) :
  run_shape (WriteNone cmd) d = written d cmd.
Proof.
  rewrite run_shape_eq. unfold written, after, perform, shape_call.
  destruct (tr_write cmd (transport d)) as [[e | []] t']; reflexivity.
Qed.

(** X1: for a channel key in {1, 2} the voltage and offset getters each
    make one query, [SOURCE<key>:VOLT?] and [SOURCE<key>:VOLT:OFFS?], and
    return [float(reply)]: the number, or [float]'s exception when the
    reply is no number, or the transport's exception. *)
Theorem float_getters_parse (key : Z) (d : Driver F T) :
  In key keys ->
  exists ch : string,
    ((key = 1%Z /\ ch = "1") \/ (key = 2%Z /\ ch = "2")) /\
    let parsed (reply : string) : Outcome (PyVal F) :=
      match py_float reply with
      | inl e => Raised e
      | inr f => Ok (PyFlt f)
      end in
    voltage key d = queried d ("SOURCE" ++ ch ++ ":VOLT?") parsed /\
    offset key d = queried d ("SOURCE" ++ ch ++ ":VOLT:OFFS?") parsed.
Proof.
  intro Hk.
  destruct (key_text key Hk) as [[-> _] | [-> _]];
    [exists "1" | exists "2"];
    (split; [auto |]); cbn zeta; split;
    exact (run_query (QueryFloat _) _ d eq_refl).
Qed.


(** X3: for a channel key in {1, 2} the waveform, trigger-source,
    sweep-mode and sweep-time getters each make one query and return the
    reply text as it came; nothing is parsed (the sweep time too comes
    back as text), so only the transport can make them raise. *)
Theorem keyed_text_getters (key : Z) (d : Driver F T) :
  In key keys ->
  exists ch : string,
    ((key = 1%Z /\ ch = "1") \/ (key = 2%Z /\ ch = "2")) /\
    let text (reply : string) : Outcome (PyVal F) := Ok (PyStr reply) in
    waveform key d = queried d ("SOURCE" ++ ch ++ ":FUNC?") text /\
    trigger_source key d = queried d ("TRIG" ++ ch ++ ":SOURCE?") text /\
    sweep_mode key d = queried d ("SOURCE" ++ ch ++ ":SWEEP:SPAC?") text /\
    sweep_time key d = queried d ("SOURCE" ++ ch ++ ":SWEEP:TIME?") text.
Proof.
  intro Hk.
  destruct (key_text key Hk) as [[-> _] | [-> _]];
    [exists "1" | exists "2"];
    (split; [auto |]); cbn zeta; repeat split;
    exact (run_query (QueryText _) _ d eq_refl).
Qed.

(** X4: [idn], [read_standard_event_status_register],
    [operation_completed], [test] and [get_error] each make one query
    ([*IDN?], [*ESR?], [*OPC?], [*TST?], [SYSTEM:ERROR?]) and return the
    reply text as it came. *)
Theorem plain_text_queries (d : Driver F T) :
  let text (reply : string) : Outcome (PyVal F) := Ok (PyStr reply) in
  idn d = queried d "*IDN?" text /\
  read_standard_event_status_register d = queried d "*ESR?" text /\
  operation_completed d = queried d "*OPC?" text /\
  test d = queried d "*TST?" text /\
  get_error d = queried d "SYSTEM:ERROR?" text.
Proof.
  cbn zeta; repeat split; exact (run_query (QueryText _) _ d eq_refl).
Qed.

(** X5: the sweep-mode and sweep-time setters send their command through
    [query], not [write]: the command goes out with a space before the
    value, a reply is awaited and dropped, and when none comes the setter
    raises the transport's exception although the command was sent. *)
Theorem sweep_setters_query (key : Z) (value : PyVal F) (d : Driver F T) :
  In key keys ->
  exists ch : string,
    ((key = 1%Z /\ ch = "1") \/ (key = 2%Z /\ ch = "2")) /\
    let dropped (reply : string) : Outcome (PyVal F) := Ok PyNone in
    sweep_mode_setter key value d =
      queried d ("SOURCE" ++ ch ++ ":SWEEP:SPAC " ++ str value) dropped /\
    sweep_time_setter key value d =
      queried d ("SOURCE" ++ ch ++ ":SWEEP:TIME " ++ str value) dropped.
Proof.
  intro Hk.
  destruct (key_text key Hk) as [[-> _] | [-> _]];
    [exists "1" | exists "2"];
    (split; [auto |]); cbn zeta; repeat split;
    unfold_methods; run_format; rewrite append_empty_r;
    exact (run_query (QueryNone _) _ d eq_refl).
Qed.






End DriverExtras.

Lemma float_getters_parse_witness :
  In 1%Z keys /\
  offset 1 (script_driver ["5.0"]) =
  (Ok (PyFlt five),
   {| transport := []; attrs := []; calls := [CQuery "SOURCE1:VOLT:OFFS?"] |}).
Proof.
  assert (Hk : In 1%Z keys) by (left; reflexivity).
  split; [exact Hk |].
  destruct (float_getters_parse 1 (script_driver ["5.0"]) Hk)
    as [ch [[[_ ->] | [E _]] [_ Heq]]]; [| discriminate E].
  rewrite Heq. reflexivity.
Defined.


Lemma keyed_text_getters_witness :
  In 1%Z keys /\
  sweep_time 1 (script_driver ["+1.0E+00"]) =
  (Ok (PyStr "+1.0E+00"),
   {| transport := []; attrs := [];
      calls := [CQuery "SOURCE1:SWEEP:TIME?"] |}).
Proof.
  assert (Hk : In 1%Z keys) by (left; reflexivity).
  split; [exact Hk |].
  destruct (keyed_text_getters 1 (script_driver ["+1.0E+00"]) Hk)
    as [ch [[[_ ->] | [E _]] [_ [_ [_ Heq]]]]]; [| discriminate E].
  rewrite Heq. reflexivity.
Defined.

Lemma sweep_setters_query_witness :
  In 1%Z keys /\
  sweep_mode_setter 1 (PyStr "LINEAR") (script_driver []) =
  (Raised (VisaIOError (-1073807339)),
   {| transport := []; attrs := [];
      calls := [CQuery "SOURCE1:SWEEP:SPAC LINEAR"] |}).
Proof.
  assert (Hk : In 1%Z keys) by (left; reflexivity).
  split; [exact Hk |].
  destruct (sweep_setters_query 1 (PyStr "LINEAR") (script_driver []) Hk)
    as [ch [[[_ ->] | [E _]] [Heq _]]]; [| discriminate E].
  rewrite Heq. reflexivity.
Defined.




(** * Properties of the spyrelet *)

Import ArbSeq.

Close Scope string_scope.
Open Scope list_scope.
Open Scope Q_scope.

Lemma Qltb_lt (a b : Q) : Qltb a b = true <-> a < b.
Proof.
  unfold Qltb. rewrite negb_true_iff.
  split.
  - intro E. apply Qnot_le_lt. intro Hle. apply Qle_bool_iff in Hle. congruence.
  - intro Hlt. destruct (Qle_bool b a) eqn:E; [| reflexivity].
    apply Qle_bool_iff in E. exfalso. exact (Qlt_not_le _ _ Hlt E).
Qed.

Lemma Qltb_ge (a b : Q) : Qltb a b = false <-> b <= a.
Proof.
  unfold Qltb. rewrite negb_false_iff. apply Qle_bool_iff.
Qed.

Section Count.
Variables (n : nat) (t : Q).
Hypothesis Ht : 0 < t.

Lemma len_nonneg : 0 <= inject_Z (Z.of_nat n).
Proof. change 0 with (inject_Z 0). rewrite <- Zle_Qle. lia. Qed.

Lemma div_mul_cancel (a : Q) : a / t * t == a.
Proof.
  rewrite Qmult_comm. apply Qmult_div_r.
  intro E. rewrite E in Ht. discriminate Ht.
Qed.

Lemma steps_nonneg : (0 <= Qceiling (inject_Z (Z.of_nat n) / t))%Z.
Proof.
  rewrite <- (Qceiling_Z 0). apply Qceiling_resp_le.
  apply Qle_shift_div_l; [exact Ht |].
  change (inject_Z 0) with 0. rewrite Qmult_0_l. apply len_nonneg.
Qed.

Lemma steps_reach : inject_Z (Z.of_nat n) <= inject_Z (Z.of_nat (steps n t)) * t.
Proof.
  unfold steps. rewrite Z2Nat.id by apply steps_nonneg.
  rewrite <- div_mul_cancel at 1.
  apply Qmult_le_compat_r; [apply Qle_ceiling | apply Qlt_le_weak, Ht].
Qed.

Lemma steps_below (k : nat) :
  (k < steps n t)%nat <-> inject_Z (Z.of_nat k) * t < inject_Z (Z.of_nat n).
Proof.
  split.
  - intro Hk.
    assert (Hz : (Z.of_nat k <= Qceiling (inject_Z (Z.of_nat n) / t) - 1)%Z).
    { unfold steps in Hk. pose proof steps_nonneg. lia. }
    assert (Hq : inject_Z (Z.of_nat k) < inject_Z (Z.of_nat n) / t).
    { eapply Qle_lt_trans; [| apply Qceiling_lt].
      rewrite <- Zle_Qle. exact Hz. }
    apply (Qmult_lt_compat_r _ _ t Ht) in Hq.
    rewrite div_mul_cancel in Hq. exact Hq.
  - intro Hlt. apply Nat.nlt_ge. intro Hge. apply Nat.nlt_ge in Hge.
    apply (Qlt_not_le _ _ Hlt).
    eapply Qle_trans; [apply steps_reach |].
    apply Qmult_le_compat_r; [| apply Qlt_le_weak, Ht].
    rewrite <- Zle_Qle. lia.
Qed.
End Count.

Lemma while_x_run (n : nat) (t : Q) :
  0 < t ->
  forall (m fuel k : nat) (x0 : Q) (acc : list Q),
    x0 == inject_Z (Z.of_nat k) * t ->
    (k + m = steps n t)%nat ->
    (m < fuel)%nat ->
    exists xs : list Q,
      while_x fuel (inject_Z (Z.of_nat n)) t x0 acc = Some (acc ++ xs) /\
      length xs = m /\
      forall j : nat, (j < m)%nat ->
        exists xj, nth_error xs j = Some xj /\
                   xj == inject_Z (Z.of_nat (k + j)) * t.
Proof.
  intros Ht m. induction m as [| m IH]; intros fuel k x0 acc Hx Hk Hfuel.
  - destruct fuel as [| fuel]; [lia |].
    exists []. cbn [while_x].
    assert (E : Qltb x0 (inject_Z (Z.of_nat n)) = false).
    { apply Qltb_ge. rewrite Hx. replace k with (steps n t) by lia.
      apply steps_reach, Ht. }
    rewrite E, app_nil_r. split; [reflexivity | split; [reflexivity |]].
    intros j Hj. lia.
  - destruct fuel as [| fuel]; [lia |].
    cbn [while_x].
    assert (E : Qltb x0 (inject_Z (Z.of_nat n)) = true).
    { apply Qltb_lt. rewrite Hx. apply (steps_below n t Ht). lia. }
    rewrite E.
    destruct (IH fuel (S k) (x0 + t) (acc ++ [x0])) as [xs [Hrun [Hlen Hnth]]].
    + rewrite Hx, Nat2Z.inj_succ. unfold Z.succ. rewrite inject_Z_plus.
      change (inject_Z 1) with 1. ring.
    + lia.
    + lia.
    + exists (x0 :: xs). rewrite Hrun, <- app_assoc. cbn [app length].
      split; [reflexivity | split; [now rewrite Hlen |]].
      intros [| j] Hj.
      * exists x0. split; [reflexivity |]. now rewrite Nat.add_0_r.
      * destruct (Hnth j ltac:(lia)) as [xj [Hj1 Hj2]].
        exists xj. split; [exact Hj1 |].
        now replace (k + S j)%nat with (S k + j)%nat by lia.
Qed.

Section Loop.
Context {Arbseq Fungen : Type}.

Lemma bind_ok {A B} (c : M (Spyrelet Arbseq Fungen) A) (k : A -> M (Spyrelet Arbseq Fungen) B) s b s' :
  bind c k s = (Ok b, s') ->
  exists a s1, c s = (Ok a, s1) /\ k a s1 = (Ok b, s').
Proof.
  unfold bind. destruct (c s) as [[a | e |] s1]; intro E;
    [eauto | discriminate E | discriminate E].
Qed.

(** A run of the acquire loop that ends normally has read, for each
    index it visited, that entry of both lists, and has acquired exactly
    those rows, in order. *)
Lemma for_acquire_ok (range : list nat) (xdata ydata : list Q) :
  forall s s' : Spyrelet Arbseq Fungen,
    for_acquire range xdata ydata s = (Ok tt, s') ->
    exists rows : list Row,
      Forall2 (fun i r => nth_error xdata i = Some (x r) /\
                          nth_error ydata i = Some (y r)) range rows /\
      log s' = (log s ++ map EAcquire rows)%list /\
      dataset s' = (dataset s ++ rows)%list /\
      fungen s' = fungen s /\
      arbseq_parameters s' = arbseq_parameters s.
Proof.
  induction range as [| i range IH]; intros s s' Hrun.
  - cbn in Hrun. injection Hrun as <-. exists [].
    cbn. rewrite !app_nil_r. repeat split. constructor.
  - cbn [for_acquire] in Hrun. unfold getitem in Hrun.
    destruct (nth_error xdata i) as [xi |] eqn:Ex; [| discriminate Hrun].
    destruct (nth_error ydata i) as [yi |] eqn:Ey; [| discriminate Hrun].
    cbn in Hrun.
    apply IH in Hrun. destruct Hrun as [rows [HF [Hl [Hd [Hf Hp]]]]].
    cbn in Hl, Hd, Hf, Hp.
    exists ({| x := xi; y := yi |} :: rows).
    rewrite Hl, Hd, Hf, Hp, <- !app_assoc. cbn.
    repeat split. constructor; [split; assumption | exact HF].
Qed.

(** The acquire loop over [range(n)] ends normally when [xdata] has at
    least [n] entries, and raises [IndexError] otherwise. *)
Lemma for_acquire_range (xdata ydata : list Q) :
  forall (m a : nat) (s : Spyrelet Arbseq Fungen),
    (a + m <= length ydata)%nat ->
    ((a + m <= length xdata)%nat ->
       exists s', for_acquire (seq a m) xdata ydata s = (Ok tt, s')) /\
    ((length xdata < a + m)%nat -> (a <= length xdata)%nat ->
       fst (for_acquire (seq a m) xdata ydata s) =
         Raised (IndexError "list index out of range")).
Proof.
  induction m as [| m IH]; intros a s Hy.
  - split; [intros _; eexists; reflexivity | intros; lia].
  - cbn [seq for_acquire]. unfold getitem.
    destruct (nth_error ydata a) as [yi |] eqn:Ey;
      [| apply nth_error_None in Ey; lia].
    destruct (nth_error xdata a) as [xi |] eqn:Ex.
    + assert (Ha : (a < length xdata)%nat)
        by (apply nth_error_Some; congruence).
      cbn.
      match goal with |- context [for_acquire _ _ _ ?s1] =>
        destruct (IH (S a) s1 ltac:(lia)) as [Hok Hbad] end.
      split.
      * intro Hx. apply Hok. lia.
      * intros Hx _. apply Hbad; lia.
    + apply nth_error_None in Ex. split; [intro; lia |].
      intros _ _. reflexivity.
Qed.
End Loop.

Lemma Qmult_le_nonneg_l (a b c : Q) : 0 <= a -> b <= c -> a * b <= a * c.
Proof.
  intros Ha Hbc. rewrite (Qmult_comm a b), (Qmult_comm a c).
  apply Qmult_le_compat_r; assumption.
Qed.

Section LoopFacts.
Context {Arbseq Fungen : Type}.


End LoopFacts.



Section TaskFacts.
Context {Arbseq Fungen : Type}
        (ydata : Arbseq -> list Q)
        (build_arbseq : string -> Params -> string -> Q -> Exn + Arbseq)
        (fungen_call : FungenCall Arbseq -> Fungen -> (Exn + unit) * Fungen).

(** A call on the function generator is logged, and touches neither the
    dataset nor the parameters. *)
Lemma call_ok (c : FungenCall Arbseq) (s s' : Spyrelet Arbseq Fungen) :
  call fungen_call c s = (Ok tt, s') ->
  log s' = log s ++ [EFungen c] /\
  dataset s' = dataset s /\
  arbseq_parameters s' = arbseq_parameters s.
Proof.
  unfold call. destruct (fungen_call c (fungen s)) as [[e | u] f'];
    intro E; [discriminate E |].
  injection E as <-. repeat split.
Qed.

(** What a normal end of [make_arb] tells about the run. *)
Lemma make_arb_ok (fuel : nat) (s s' : Spyrelet Arbseq Fungen) :
  make_arb ydata build_arbseq fungen_call fuel s = (Ok tt, s') ->
  let p := arbseq_parameters s in
  exists (arbseq : Arbseq) (xdata : list Q) (rows : list Row),
    build_arbseq (seqtype p) p (seqname p) (timestep p) = inr arbseq /\
    while_x fuel (len (ydata arbseq)) (timestep p) 0 [] = Some xdata /\
    Forall2 (fun i r => nth_error xdata i = Some (x r) /\
                        nth_error (ydata arbseq) i = Some (y r))
            (seq 0 (length (ydata arbseq))) rows /\
    log s' = log s ++ map EAcquire rows ++
               [EFungen (send_arb arbseq (channel p)); EClear] /\
    dataset s' = [] /\
    arbseq_parameters s' = p.
Proof.
  intros Hrun p. unfold make_arb in Hrun.
  unfold bind at 1, widget_get in Hrun. fold p in Hrun.
  unfold bind at 1 in Hrun.
  destruct (build_arbseq (seqtype p) p (seqname p) (timestep p))
    as [e | arbseq] eqn:Eb; [discriminate Hrun |].
  cbn [lift ret] in Hrun.
  destruct (while_x fuel (len (ydata arbseq)) (timestep p) 0 [])
    as [xdata |] eqn:Ew; [| discriminate Hrun].
  apply bind_ok in Hrun. destruct Hrun as [[] [s1 [Hacq Hrun]]].
  apply bind_ok in Hrun. destruct Hrun as [[] [s2 [Hcall Hclear]]].
  apply for_acquire_ok in Hacq.
  destruct Hacq as [rows [HF [Hl1 [Hd1 [_ Hp1]]]]].
  apply call_ok in Hcall. destruct Hcall as [Hl2 [Hd2 Hp2]].
  unfold dataset_clear in Hclear. injection Hclear as <-.
  exists arbseq, xdata, rows. cbn [log dataset arbseq_parameters].
  rewrite Hl2, Hl1, Hp2, Hp1, <- !app_assoc.
  repeat split; assumption.
Qed.

(** C5: a run of the task that ends normally has, in this order and with
    nothing in between: cleared the status, set the voltage of the
    selected channel, switched that channel's output on, acquired one
    row per sample (row [i] holding [xdata[i]] and [ydata[i]]), uploaded
    the sequence to that channel, and cleared the dataset. *)
Theorem pipeline_order (fuel : nat) (s s' : Spyrelet Arbseq Fungen) :
  run_task ydata build_arbseq fungen_call fuel s = (Ok tt, s') ->
  let p := arbseq_parameters s in
  exists (arbseq : Arbseq) (xdata : list Q) (rows : list Row),
    build_arbseq (seqtype p) p (seqname p) (timestep p) = inr arbseq /\
    while_x fuel (len (ydata arbseq)) (timestep p) 0 [] = Some xdata /\
    Forall2 (fun i r => nth_error xdata i = Some (x r) /\
                        nth_error (ydata arbseq) i = Some (y r))
            (seq 0 (length (ydata arbseq))) rows /\
    log s' = log s ++
               [EFungen clear_status;
                EFungen (voltage_set (channel p) (voltage p));
                EFungen (output_set (channel p) "ON")] ++
               map EAcquire rows ++
               [EFungen (send_arb arbseq (channel p)); EClear].
Proof.
  intros Hrun p. unfold run_task in Hrun.
  apply bind_ok in Hrun. destruct Hrun as [[] [s1 [Hinit Hrun]]].
  apply bind_ok in Hrun. destruct Hrun as [[] [s2 [Hmake Hfin]]].
  unfold finalize, ret in Hfin. injection Hfin as ->.
  unfold initialize in Hinit.
  unfold bind at 1, widget_get in Hinit. fold p in Hinit.
  apply bind_ok in Hinit. destruct Hinit as [[] [a1 [Hc1 Hinit]]].
  apply bind_ok in Hinit. destruct Hinit as [[] [a2 [Hc2 Hinit]]].
  apply bind_ok in Hinit. destruct Hinit as [[] [a3 [Hc3 Hinit]]].
  unfold ret in Hinit. injection Hinit as ->.
  apply call_ok in Hc1. destruct Hc1 as [Hl1 [_ Hp1]].
  apply call_ok in Hc2. destruct Hc2 as [Hl2 [_ Hp2]].
  apply call_ok in Hc3. destruct Hc3 as [Hl3 [_ Hp3]].
  assert (Hp : arbseq_parameters s1 = p) by (rewrite Hp3, Hp2, Hp1; reflexivity).
  apply make_arb_ok in Hmake. cbn zeta in Hmake. rewrite Hp in Hmake.
  destruct Hmake as [arbseq [xdata [rows [Hb [Hw [HF [Hl _]]]]]]].
  exists arbseq, xdata, rows.
  rewrite Hl, Hl3, Hl2, Hl1, <- !app_assoc.
  repeat split; assumption.
Qed.

(** C10: when [make_arb] ends normally the dataset is empty, and the
    clearing is the step right after the upload: the run's last two
    events are the [send_arb] call and the clear, after the rows that
    were acquired, one per sample. *)
Theorem dataset_cleared_after_upload
        (fuel : nat) (s s' : Spyrelet Arbseq Fungen) :
  make_arb ydata build_arbseq fungen_call fuel s = (Ok tt, s') ->
  dataset s' = [] /\
  exists (arbseq : Arbseq) (rows : list Row),
    length rows = length (ydata arbseq) /\
    log s' = log s ++ map EAcquire rows ++
               [EFungen (send_arb arbseq (channel (arbseq_parameters s)));
                EClear].
Proof.
  intro Hrun. apply make_arb_ok in Hrun. cbn zeta in Hrun.
  destruct Hrun as [arbseq [xdata [rows [_ [_ [HF [Hl [Hd _]]]]]]]].
  split; [exact Hd |]. exists arbseq, rows. split; [| exact Hl].
  apply Forall2_length in HF. rewrite length_seq in HF. now symmetry.
Qed.

End TaskFacts.

Lemma pipeline_order_witness :
  log (snd (run_task StubTask.ydata StubTask.build_arbseq StubTask.fungen_call
              4 StubTask.fresh)) =
  [EFungen clear_status;
   EFungen (voltage_set 1 (5 # 100));
   EFungen (output_set 1 "ON");
   EAcquire {| x := 0; y := 5 # 100 |};
   EAcquire {| x := 0 + 1; y := 5 # 100 |};
   EAcquire {| x := 0 + 1 + 1; y := 5 # 100 |};
   EFungen (send_arb [5 # 100; 5 # 100; 5 # 100] 1);
   EClear].
Proof.
  destruct (pipeline_order StubTask.ydata StubTask.build_arbseq
              StubTask.fungen_call 4 StubTask.fresh
              (snd (run_task StubTask.ydata StubTask.build_arbseq
                      StubTask.fungen_call 4 StubTask.fresh)) eq_refl)
    as [arbseq [xdata [rows [Hb [Hw [HF Hl]]]]]].
  rewrite Hl. injection Hb as <-. injection Hw as <-.
  repeat match goal with
         | HF : Forall2 _ _ _ |- _ => inversion HF; subst; clear HF
         end.
  repeat match goal with
         | r : Row |- _ => destruct r
         | Hxy : _ /\ _ |- _ => destruct Hxy
         end.
  cbn in *.
  repeat match goal with
         | E : Some _ = Some _ |- _ => injection E as <-
         end.
  reflexivity.
Defined.

Lemma dataset_cleared_after_upload_witness :
  dataset (snd (make_arb StubTask.ydata StubTask.build_arbseq
                  StubTask.fungen_call 4 StubTask.fresh)) = [].
Proof.
  exact (proj1 (dataset_cleared_after_upload StubTask.ydata
                  StubTask.build_arbseq StubTask.fungen_call 4
                  StubTask.fresh
                  (snd (make_arb StubTask.ydata StubTask.build_arbseq
                          StubTask.fungen_call 4 StubTask.fresh))
                  eq_refl)).
Defined.

(** ** Every way the task can end *)

Lemma nth_error_zip_rows (xdata ydata : list Q) (k : nat) :
  nth_error (zip_rows xdata ydata) k =
  match nth_error xdata k, nth_error ydata k with
  | Some xk, Some yk => Some {| x := xk; y := yk |}
  | _, _ => None
  end.
Proof.
  revert ydata k. induction xdata as [| x0 xs IH]; intros ydata k.
  - destruct k; reflexivity.
  - destruct ydata as [| y0 ys].
    + destruct k; cbn; [reflexivity |]. destruct (nth_error xs k); reflexivity.
    + destruct k; cbn; [reflexivity |]. apply IH.
Qed.

Lemma length_zip_rows (xdata ydata : list Q) :
  length (zip_rows xdata ydata) = Nat.min (length xdata) (length ydata).
Proof.
  unfold zip_rows. rewrite length_map. apply length_combine.
Qed.

Section LoopRuns.
Context {Arbseq Fungen : Type}.

Lemma acquired_nil (s : Spyrelet Arbseq Fungen) : acquired s [] = s.
Proof.
  destruct s. unfold acquired. cbn. rewrite !app_nil_r. reflexivity.
Qed.

Lemma acquired_cons (s : Spyrelet Arbseq Fungen) (r : Row) (rows : list Row) :
  acquired (acquired s [r]) rows = acquired s (r :: rows).
Proof.
  unfold acquired. cbn. rewrite <- !app_assoc. reflexivity.
Qed.

Lemma for_acquire_shift (range : list nat) (x0 y0 : Q) (xs ys : list Q)
      (s : Spyrelet Arbseq Fungen) :
  for_acquire (map S range) (x0 :: xs) (y0 :: ys) s = for_acquire range xs ys s.
Proof.
  revert s. induction range as [| i range IH]; intro s; [reflexivity |].
  cbn [map for_acquire]. unfold bind, getitem. cbn [nth_error].
  destruct (nth_error xs i) as [xi |]; [| reflexivity].
  destruct (nth_error ys i) as [yi |]; [| reflexivity].
  cbn. apply IH.
Qed.

(** The acquire loop, run: it acquires the rows that pair the two lists as
    far as both go, and raises [IndexError] when [xdata] is the shorter. *)
Lemma for_acquire_run (ydata xdata : list Q) (s : Spyrelet Arbseq Fungen) :
  for_acquire (seq 0 (length ydata)) xdata ydata s =
  (if (length ydata <=? length xdata)%nat then Ok tt else Raised (IndexError "list index out of range"),
   acquired s (zip_rows xdata ydata)).
Proof.
  revert xdata s. induction ydata as [| y0 ys IH]; intros xdata s.
  - cbn. unfold zip_rows. rewrite combine_nil. cbn. now rewrite acquired_nil.
  - cbn [length seq for_acquire]. destruct xdata as [| x0 xs].
    + cbn. now rewrite acquired_nil.
    + unfold bind at 1. cbn [getitem nth_error ret].
      unfold bind at 1. cbn [getitem nth_error ret].
      unfold bind at 1. cbn [acquire].
      rewrite <- seq_shift, for_acquire_shift, IH.
      change (zip_rows (x0 :: xs) (y0 :: ys))
        with ({| x := x0; y := y0 |} :: zip_rows xs ys).
      rewrite <- acquired_cons. reflexivity.
Qed.

End LoopRuns.

Lemma while_x_steps (n : nat) (t : Q) (fuel : nat) :
  0 < t -> (steps n t < fuel)%nat ->
  exists xdata : list Q,
    while_x fuel (inject_Z (Z.of_nat n)) t 0 [] = Some xdata /\
    length xdata = steps n t /\
    forall k xk, nth_error xdata k = Some xk -> xk == inject_Z (Z.of_nat k) * t.
Proof.
  intros Ht Hfuel.
  destruct (while_x_run n t Ht (steps n t) fuel 0%nat 0 [])
    as [xs [Hrun [Hlen Hnth]]]; [cbn; ring | reflexivity | exact Hfuel |].
  exists xs. split; [exact Hrun | split; [exact Hlen |]].
  intros k xk Hk.
  assert (Hlt : (k < steps n t)%nat).
  { rewrite <- Hlen. apply nth_error_Some. congruence. }
  destruct (Hnth k Hlt) as [xj [Hj1 Hj2]].
  rewrite Hk in Hj1. injection Hj1 as ->. exact Hj2.
Qed.

Lemma while_x_stuck (n t : Q) :
  0 < n -> t <= 0 ->
  forall (fuel : nat) (x0 : Q) (acc : list Q),
    x0 <= 0 -> while_x fuel n t x0 acc = None.
Proof.
  intros Hn Ht fuel. induction fuel as [| fuel IH]; intros x0 acc Hx;
    [reflexivity |].
  cbn [while_x].
  assert (E : Qltb x0 n = true).
  { apply Qltb_lt. eapply Qle_lt_trans; eassumption. }
  rewrite E. apply IH.
  setoid_replace 0 with (0 + 0) by ring. apply Qplus_le_compat; assumption.
Qed.

Lemma rows_of_xdata (xdata ydata : list Q) (t : Q) :
  (forall k xk, nth_error xdata k = Some xk -> xk == inject_Z (Z.of_nat k) * t) ->
  forall k r, nth_error (zip_rows xdata ydata) k = Some r ->
    x r == inject_Z (Z.of_nat k) * t /\ nth_error ydata k = Some (y r).
Proof.
  intros Hx k r Hr. rewrite nth_error_zip_rows in Hr.
  destruct (nth_error xdata k) as [xk |] eqn:Ex; [| discriminate Hr].
  destruct (nth_error ydata k) as [yk |] eqn:Ey; [| discriminate Hr].
  injection Hr as <-. cbn. split; [apply (Hx k xk Ex) | reflexivity].
Qed.

Section TaskRuns.
Context {Arbseq Fungen : Type}
        (ydata : Arbseq -> list Q)
        (build_arbseq : string -> Params -> string -> Q -> Exn + Arbseq)
        (fungen_call : FungenCall Arbseq -> Fungen -> (Exn + unit) * Fungen).

(** [make_arb], run: every way it can end. *)
Lemma make_arb_run (fuel : nat) (s : Spyrelet Arbseq Fungen) :
  let p := arbseq_parameters s in
  make_arb ydata build_arbseq fungen_call fuel s =
  match build_arbseq (seqtype p) p (seqname p) (timestep p) with
  | inl e => (Raised e, s)
  | inr arbseq =>
      match while_x fuel (len (ydata arbseq)) (timestep p) 0 [] with
      | None => (OutOfFuel, s)
      | Some xdata =>
          let s1 := acquired s (zip_rows xdata (ydata arbseq)) in
          if (length (ydata arbseq) <=? length xdata)%nat then
            let up := send_arb arbseq (channel p) in
            match fungen_call up (fungen s) with
            | (inl e, f') =>
                (Raised e,
                 {| arbseq_parameters := p; fungen := f';
                    dataset := dataset s1; log := log s1 ++ [EFungen up] |})
            | (inr _, f') =>
                (Ok tt,
                 {| arbseq_parameters := p; fungen := f';
                    dataset := []; log := log s1 ++ [EFungen up; EClear] |})
            end
          else (Raised (IndexError "list index out of range"), s1)
      end
  end.
Proof.
  intro p. unfold make_arb. unfold bind at 1, widget_get. fold p.
  unfold bind at 1.
  destruct (build_arbseq (seqtype p) p (seqname p) (timestep p))
    as [e | arbseq]; [reflexivity |].
  cbn [lift ret].
  destruct (while_x fuel (len (ydata arbseq)) (timestep p) 0 [])
    as [xdata |]; [| reflexivity].
  unfold bind at 1. rewrite for_acquire_run.
  destruct (length (ydata arbseq) <=? length xdata)%nat; [| reflexivity].
  unfold bind, call. cbn [fungen acquired arbseq_parameters dataset log].
  destruct (fungen_call (send_arb arbseq (channel p)) (fungen s))
    as [[e | u] f']; [reflexivity |].
  unfold dataset_clear. cbn. rewrite <- !app_assoc. reflexivity.
Qed.

(** X11: when the sequence builder raises, [make_arb] raises the same
    exception and has done nothing: no row acquired, no call on the
    function generator, the dataset as it was. *)
Theorem make_arb_builder_failure (fuel : nat) (s : Spyrelet Arbseq Fungen) (e : Exn) :
  let p := arbseq_parameters s in
  build_arbseq (seqtype p) p (seqname p) (timestep p) = inl e ->
  make_arb ydata build_arbseq fungen_call fuel s = (Raised e, s).
Proof.
  intros p Hb. rewrite make_arb_run. fold p. rewrite Hb. reflexivity.
Qed.




(** X15: with a timestep that is zero or negative and at least one sample,
    the [while] loop that builds [xdata] never ends: whatever the fuel, the
    run is still in that loop, with nothing acquired and nothing sent. *)
Theorem make_arb_never_ends (s : Spyrelet Arbseq Fungen) (arbseq : Arbseq) :
  let p := arbseq_parameters s in
  build_arbseq (seqtype p) p (seqname p) (timestep p) = inr arbseq ->
  ydata arbseq <> [] ->
  timestep p <= 0 ->
  forall fuel : nat,
    make_arb ydata build_arbseq fungen_call fuel s = (OutOfFuel, s).
Proof.
  intros p Hb Hy Ht fuel. rewrite make_arb_run. fold p. rewrite Hb.
  rewrite while_x_stuck; [reflexivity | | exact Ht | apply Qle_refl].
  unfold len. change 0 with (inject_Z 0). rewrite <- Zlt_Qlt.
  destruct (ydata arbseq); [congruence | cbn [length]; lia].
Qed.

(** X16: a sequence without samples is still uploaded.  Whatever the
    timestep, [make_arb] acquires nothing and calls [send_arb]; when that
    returns, the dataset is cleared, rows of earlier runs included; when it
    raises, the dataset is left as it was. *)
Theorem make_arb_empty_sequence (fuel : nat) (s : Spyrelet Arbseq Fungen)
        (arbseq : Arbseq) :
  let p := arbseq_parameters s in
  let up := send_arb arbseq (channel p) in
  build_arbseq (seqtype p) p (seqname p) (timestep p) = inr arbseq ->
  ydata arbseq = [] ->
  make_arb ydata build_arbseq fungen_call (S fuel) s =
  match fungen_call up (fungen s) with
  | (inl e, f') =>
      (Raised e,
       {| arbseq_parameters := p; fungen := f';
          dataset := dataset s; log := log s ++ [EFungen up] |})
  | (inr _, f') =>
      (Ok tt,
       {| arbseq_parameters := p; fungen := f';
          dataset := []; log := log s ++ [EFungen up; EClear] |})
  end.
Proof.
  intros p up Hb Hy. rewrite make_arb_run. fold p. rewrite Hb, Hy.
  change (while_x (S fuel) (len []) (timestep p) 0 []) with (Some (@nil Q)).
  cbn zeta. cbn [length Nat.leb]. unfold zip_rows. cbn [combine map].
  rewrite acquired_nil. reflexivity.
Qed.


End TaskRuns.

Lemma make_arb_builder_failure_witness :
  make_arb StubTask.ydata StubTask.failing_build StubTask.fungen_call
    4 StubTask.fresh =
  (Raised (OtherError "SeqBuild"), StubTask.fresh).
Proof.
  exact (make_arb_builder_failure StubTask.ydata StubTask.failing_build
           StubTask.fungen_call 4 StubTask.fresh (OtherError "SeqBuild")
           eq_refl).
Defined.




Lemma make_arb_never_ends_witness :
  make_arb StubTask.ydata StubTask.build_arbseq StubTask.fungen_call
    1000 (StubTask.at_timestep 0) =
  (OutOfFuel, StubTask.at_timestep 0).
Proof.
  apply (make_arb_never_ends StubTask.ydata StubTask.build_arbseq
           StubTask.fungen_call (StubTask.at_timestep 0)
           [5 # 100; 5 # 100; 5 # 100] eq_refl).
  - discriminate.
  - apply Qle_refl.
Defined.

Lemma make_arb_empty_sequence_witness :
  make_arb StubTask.ydata StubTask.empty_build StubTask.fungen_call
    1 (StubTask.at_timestep 0) =
  (Ok tt,
   {| arbseq_parameters := arbseq_parameters (StubTask.at_timestep 0);
      fungen := [send_arb [] 1];
      dataset := [];
      log := [EFungen (send_arb [] 1); EClear] |}).
Proof.
  exact (make_arb_empty_sequence StubTask.ydata StubTask.empty_build
           StubTask.fungen_call 0 (StubTask.at_timestep 0) []
           eq_refl eq_refl).
Defined.
